(** * crypto_price_tracker.py: a shallow embedding and its properties

    The tracker drives a browser over a listing page, turns the text of the
    first ten table rows into dictionaries, prints them, appends them to a
    CSV file and prints a short gainers/losers analysis.

    The embedding keeps the shape of the Python source:
    - a program is a function from a [World] (the heap of list objects, the
      lines written to standard output, the files on disk, the number of
      clock readings so far) to an outcome and a new world; an outcome is a
      returned value or a raised exception, and the world changes made before
      an exception are kept, as in Python;
    - what the outside does during one run (the browser, the clock, disk
      faults) is an [Env], read and never written by the program;
    - [try ... except], [try ... finally] and the [for] loops are
      combinators of their own;
    - the list [crypto_data] is an object on the heap, passed by reference to
      [display_data], [save_to_csv] and [analyze_data], as in the source.

    Outside the model: [time.sleep] (no effect on any value), a [print] that
    fails, and exceptions that are not subclasses of [Exception].  What
    pandas makes of the text of a file, and of a frame when it writes it, is
    a parameter of the model. *)

From Stdlib Require Import String Ascii List ZArith QArith Lia Bool DecimalString Sorted.
From stdpp Require Import gmap strings list.

Open Scope string_scope.
Open Scope list_scope.
Open Scope nat_scope.

(** ** Exceptions *)

(** The classes the source tells apart: [except FileNotFoundError] in
    [save_to_csv], and everything else under [except Exception].  [Other]
    stands for any other subclass of [Exception], named by its class:
    selenium's TimeoutException, pandas' ParserError, PermissionError ... *)
Inductive exn_class : Type :=
| FileNotFoundError
| ValueError
| IndexError
| Other (name : string).

Record exn : Type := Exn { cls : exn_class; msg : string }.

(** [str(e)], as the f-strings of the source print it. *)
Definition str_exn (e : exn) : string := msg e.

Definition is_FileNotFoundError (e : exn) : bool :=
  match cls e with FileNotFoundError => true | _ => false end.

Inductive result (A : Type) : Type :=
| Ret (a : A)
| Raise (e : exn).
Arguments Ret {A} a.
Arguments Raise {A} e.

(** ** Data *)

(** The dictionary built at lines 61-69; its keys are fixed, so it is a
    record.  ['24h_Change'] is spelled [Change_24h]. *)
Record coin_info : Type := CoinInfo {
  Rank : nat;
  Name : string;
  Symbol : string;
  Price : string;
  Change_24h : string;
  Market_Cap : string;
  Timestamp : string
}.

(** A value in a cell of a data frame.  A float is kept with the text
    pandas writes for it; [NaN] is the missing value. *)
Inductive cell : Type :=
| Text (s : string)
| Integer (n : Z)
| Float (repr : string)
| NaN.

(** A data frame, as far as this program sees one: its rows, in order; a
    row holds its values with the names of their columns. *)
Abbreviation frame := (list (list (string * cell))) (only parsing).

(** The text of a CSV file: its lines, the line of column names first, each
    line as the list of its fields (the quoting of commas is left out). *)
Abbreviation csv := (list (list string)) (only parsing).

(** A reference to a Python list object. *)
Definition loc : Type := nat.

Record World : Type := mkWorld {
  heap : gmap loc (list coin_info);
  stdout : list string;
  files : gmap string csv;
  ticks : nat
}.

(** A write that fails raises, and leaves on disk whatever the failure left
    there ([None]: no file). *)
Record write_failure : Type := WriteFailure {
  wf_class : string;
  wf_msg : string;
  wf_left : option csv
}.

(** What a browser row gives when its [text] is read: the text, or an
    exception (a stale element, say). *)
Record WebElement : Type := { text : result string }.

Record Env : Type := mkEnv {
  (* webdriver.Chrome(...) in setup_driver *)
  launch : option exn;
  (* driver.get *)
  page_get : option exn;
  (* waiting for the cookie button and clicking it *)
  cookie_button : option exn;
  (* waiting for table.cmc-table *)
  table_wait : option exn;
  (* driver.find_elements *)
  table_rows : result (list WebElement);
  (* driver.quit *)
  quit : option exn;
  (* datetime.now().strftime(...) at the n-th reading of the clock *)
  clock : nat -> string;
  (* pd.read_csv fails on a file that is there: class name and message *)
  read_fault : string -> option (string * string);
  (* DataFrame.to_csv fails *)
  write_fault : string -> option write_failure;
  (* pandas is not part of the repository: the frame its parser makes of
     the text of a file, and the text its writer makes of a frame, are
     taken as given *)
  parse_csv : csv -> frame;
  format_csv : frame -> csv
}.

(** ** The monad of programs *)

Definition M (A : Type) : Type := World -> result A * World.

Definition ret {A} (a : A) : M A := fun w => (Ret a, w).

Definition raise {A} (e : exn) : M A := fun w => (Raise e, w).

Definition bind {A B} (m : M A) (k : A -> M B) : M B :=
  fun w =>
    match m w with
    | (Ret a, w') => k a w'
    | (Raise e, w') => (Raise e, w')
    end.

Notation "x <- m ;; k" := (bind m (fun x => k))
  (at level 100, m at next level, right associativity).
Notation "m ;; k" := (bind m (fun _ => k))
  (at level 100, right associativity).

Definition lift {A} (r : result A) : M A := fun w => (r, w).

(** [try: body  except Exception as e: handler e]. *)
Definition try_except {A} (body : M A) (handler : exn -> M A) : M A :=
  fun w =>
    match body w with
    | (Ret a, w') => (Ret a, w')
    | (Raise e, w') => handler e w'
    end.

(** [try: body  except FileNotFoundError: handler]; any other exception
    goes on to the enclosing handler. *)
Definition try_except_FileNotFoundError {A} (body : M A) (handler : M A) : M A :=
  fun w =>
    match body w with
    | (Ret a, w') => (Ret a, w')
    | (Raise e, w') =>
        if is_FileNotFoundError e then handler w' else (Raise e, w')
    end.

(** [try: body  finally: final].  [final] runs on every path; an exception
    of [final] replaces the outcome of [body]. *)
Definition try_finally {A} (body : M A) (final : M unit) : M A :=
  fun w =>
    match body w with
    | (r, w') =>
        match final w' with
        | (Ret _, w'') => (r, w'')
        | (Raise e, w'') => (Raise e, w'')
        end
    end.

(** [for i, x in enumerate(l, i0): body i x]. *)
Fixpoint for_enumerate {A} (body : nat -> A -> M unit) (i : nat) (l : list A) : M unit :=
  match l with
  | [] => ret tt
  | x :: rest => body i x ;; for_enumerate body (S i) rest
  end.

(** [for x in l: body x]. *)
Fixpoint for_each {A} (body : A -> M unit) (l : list A) : M unit :=
  match l with
  | [] => ret tt
  | x :: rest => body x ;; for_each body rest
  end.

(** ** Primitive effects *)

Definition print (line : string) : M unit :=
  fun w => (Ret tt, mkWorld (heap w) (stdout w ++ [line]) (files w) (ticks w)).

(** [datetime.now().strftime("%Y-%m-%d %H:%M:%S")]. *)
Definition datetime_now (env : Env) : M string :=
  fun w => (Ret (clock env (ticks w)),
            mkWorld (heap w) (stdout w) (files w) (S (ticks w))).

(** [[]]: a new list object. *)
Definition new_list : M loc :=
  fun w => let l := fresh (dom (heap w)) in
           (Ret l, mkWorld (<[l := []]> (heap w)) (stdout w) (files w) (ticks w)).

(** The list a reference points to. *)
Definition deref (w : World) (l : loc) : list coin_info :=
  default [] (heap w !! l).

Definition load (l : loc) : M (list coin_info) :=
  fun w => (Ret (deref w l), w).

(** [data.append(x)]: the list object changes in place. *)
Definition list_append (l : loc) (x : coin_info) : M unit :=
  fun w => (Ret tt,
            mkWorld (<[l := deref w l ++ [x]]> (heap w)) (stdout w) (files w) (ticks w)).

(** A call that has no result and may raise. *)
Definition call (fault : option exn) : M unit :=
  match fault with
  | Some e => raise e
  | None => ret tt
  end.

(** ** Strings *)

Definition newline : ascii := "010"%char.

(** [s.split('\n')]: the pieces between line feeds; never empty. *)
Fixpoint split_lines (s : string) : list string :=
  match s with
  | EmptyString => [EmptyString]
  | String c rest =>
      if Ascii.eqb c newline then EmptyString :: split_lines rest
      else match split_lines rest with
           | piece :: pieces => String c piece :: pieces
           | [] => [String c EmptyString]
           end
  end.

(** [s.startswith(p)]. *)
Definition startswith (p s : string) : bool := String.prefix p s.

(** [s.replace(c, '')] for a one-character [c]. *)
Fixpoint remove_char (c : ascii) (s : string) : string :=
  match s with
  | EmptyString => EmptyString
  | String d rest =>
      if Ascii.eqb d c then remove_char c rest else String d (remove_char c rest)
  end.

(** [c * n]. *)
Fixpoint repeat_char (c : ascii) (n : nat) : string :=
  match n with
  | O => EmptyString
  | S k => String c (repeat_char c k)
  end.

(** [len(s)] counts code points; a string here is its UTF-8 bytes, and a
    byte starts a code point unless it is a continuation byte 10xxxxxx. *)
Fixpoint py_len (s : string) : nat :=
  match s with
  | EmptyString => 0
  | String c rest =>
      let n := nat_of_ascii c in
      if (128 <=? n) && (n <? 192) then py_len rest else S (py_len rest)
  end.

(** The format spec [:<n]: pad with blanks on the right up to [n]. *)
Definition ljust (n : nat) (s : string) : string :=
  s +:+ repeat_char " "%char (n - py_len s).

(** [str(n)] for an integer that is not negative. *)
Definition str_nat (n : nat) : string :=
  NilEmpty.string_of_uint (Nat.to_uint n).

(** [l[i]]. *)
Definition getitem (l : list string) (i : nat) : M string :=
  match nth_error l i with
  | Some x => ret x
  | None => raise (Exn IndexError "list index out of range")
  end.

(** ** float() *)

(** [float(s)] on decimal literals: an optional sign, digits, an optional
    point and digits, at least one digit in all.  The value is kept as the
    rational the literal denotes.  On literals of up to 15 significant digits
    rounding to binary64 is injective and monotone, so the order of the
    rationals is the order of the floats; the percentages of the page have
    two decimals.  Any other text is taken to raise ValueError: Python does so
    too, except for the forms the page does not show (exponents, inf, nan,
    underscores, blanks around the literal). *)

Definition digit (c : ascii) : option Z :=
  let n := nat_of_ascii c in
  if (48 <=? n) && (n <=? 57) then Some (Z.of_nat (n - 48)) else None.

(** Digits up to the end of the text or to the first point: their value,
    their number, and what follows the point if there is one. *)
Fixpoint int_part (s : string) (acc : Z) (n : nat) : option (Z * nat * option string) :=
  match s with
  | EmptyString => Some (acc, n, None)
  | String c rest =>
      if Ascii.eqb c "."%char then Some (acc, n, Some rest)
      else match digit c with
           | Some d => int_part rest (10 * acc + d)%Z (S n)
           | None => None
           end
  end.

(** Digits up to the end of the text: numerator and denominator so far. *)
Fixpoint frac_part (s : string) (num : Z) (den : positive) (n : nat) : option (Z * positive * nat) :=
  match s with
  | EmptyString => Some (num, den, n)
  | String c rest =>
      match digit c with
      | Some d => frac_part rest (10 * num + d)%Z (10 * den)%positive (S n)
      | None => None
      end
  end.

Definition unsigned_literal (s : string) : option Q :=
  match int_part s 0%Z 0 with
  | Some (i, n, None) => if n =? 0 then None else Some (i # 1)%Q
  | Some (i, n, Some rest) =>
      match frac_part rest i 1%positive 0 with
      | Some (num, den, k) => if n + k =? 0 then None else Some (num # den)%Q
      | None => None
      end
  | None => None
  end.

Definition literal (s : string) : option Q :=
  match s with
  | String "+"%char rest => unsigned_literal rest
  | String "-"%char rest => option_map Qopp (unsigned_literal rest)
  | _ => unsigned_literal s
  end.

Definition float (s : string) : result Q :=
  match literal s with
  | Some q => Ret q
  | None => Raise (Exn ValueError ("could not convert string to float: '" +:+ s +:+ "'"))
  end.

(** ** max and min with a key *)

Definition bind_result {A B} (r : result A) (k : A -> result B) : result B :=
  match r with
  | Ret a => k a
  | Raise e => Raise e
  end.

(** [a > b] and [a < b] on floats. *)
Definition float_gt (a b : Q) : bool := negb (Qle_bool a b).
Definition float_lt (a b : Q) : bool := negb (Qle_bool b a).

(** The loop of [max] and [min]: the key of every item is computed, in
    order; the item kept changes only on a strict improvement, so among equal
    keys the first item wins. *)
Fixpoint best_by {A} (better : Q -> Q -> bool) (key : A -> result Q)
    (best : A) (kbest : Q) (rest : list A) : result A :=
  match rest with
  | [] => Ret best
  | x :: rest' =>
      bind_result (key x) (fun kx =>
        if better kx kbest then best_by better key x kx rest'
        else best_by better key best kbest rest')
  end.

Definition extremum {A} (better : Q -> Q -> bool) (name : string)
    (l : list A) (key : A -> result Q) : result A :=
  match l with
  | [] => Raise (Exn ValueError (name +:+ "() arg is an empty sequence"))
  | x :: rest => bind_result (key x) (fun kx => best_by better key x kx rest)
  end.

(** [max(l, key=key)] and [min(l, key=key)]. *)
Definition py_max {A} (l : list A) (key : A -> result Q) : result A :=
  extremum float_gt "max" l key.
Definition py_min {A} (l : list A) (key : A -> result Q) : result A :=
  extremum float_lt "min" l key.

(** ** The program *)

(** Lines 13-24.  The options and the service are plain values; the call
    that can fail is the launch of the browser.  The driver itself carries no
    data the program reads back, what the browser answers is in [Env]. *)
Definition setup_driver (env : Env) : M unit :=
  call (launch env).

(** Lines 38-44: the cookie banner, under a bare [except]. *)
Definition accept_cookies (env : Env) : M unit :=
  try_except
    (call (cookie_button env) ;;
     print "✅ Cookies accepted")
    (fun _ => print "ℹ️ No cookie banner found").

(** Lines 56-76: the body of the loop, for the row at position [i]. *)
Definition scrape_row (env : Env) (crypto_data : loc) (i : nat) (row : WebElement) : M unit :=
  try_except
    (row_text <- lift (text row) ;;
     let row_data := split_lines row_text in
     if 6 <=? List.length row_data then
       name <- getitem row_data 1 ;;
       symbol <- getitem row_data 2 ;;
       price <- getitem row_data 3 ;;
       change <- getitem row_data 4 ;;
       market_cap <- (if 5 <? List.length row_data then getitem row_data 5
                      else ret "N/A") ;;
       timestamp <- datetime_now env ;;
       let coin_info := CoinInfo i name symbol price change market_cap timestamp in
       list_append crypto_data coin_info ;;
       print ("✅ " +:+ str_nat i +:+ ". " +:+ Name coin_info +:+ " - $"
              +:+ Price coin_info +:+ " (" +:+ Change_24h coin_info +:+ ")")
     else ret tt)
    (fun e => print ("❌ Error with coin " +:+ str_nat i +:+ ": " +:+ str_exn e)).

(** Lines 26-83. *)
Definition scrape_crypto_prices (env : Env) : M loc :=
  setup_driver env ;;
  crypto_data <- new_list ;;
  try_finally
    (try_except
       (print "🔄 Loading CoinMarketCap..." ;;
        call (page_get env) ;;
        accept_cookies env ;;
        call (table_wait env) ;;
        rows <- lift (table_rows env) ;;
        print ("📊 Found " +:+ str_nat (List.length rows)
               +:+ " cryptocurrencies, extracting top 10...") ;;
        for_enumerate (scrape_row env crypto_data) 1 (firstn 10 rows))
       (fun e => print ("❌ Scraping error: " +:+ str_exn e)))
    (call (quit env)) ;;
  ret crypto_data.

(** [pd.DataFrame(data)]: one row for each dictionary, the columns in the
    order of the keys; the rank is an integer, the other values are text. *)
Definition row_of_coin (coin : coin_info) : list (string * cell) :=
  [("Rank", Integer (Z.of_nat (Rank coin)));
   ("Name", Text (Name coin));
   ("Symbol", Text (Symbol coin));
   ("Price", Text (Price coin));
   ("24h_Change", Text (Change_24h coin));
   ("Market_Cap", Text (Market_Cap coin));
   ("Timestamp", Text (Timestamp coin))].

Definition DataFrame (data : list coin_info) : frame := map row_of_coin data.

(** [pd.concat([a, b], ignore_index=True)]: the rows of [a], then the rows
    of [b]. *)
Definition pd_concat (a b : frame) : frame := a ++ b.

(** [pd.read_csv(filename)]: FileNotFoundError exactly when there is no
    such file; any other failure is a fault of the environment; otherwise
    the frame pandas parses from the text of the file. *)
Definition read_csv (env : Env) (filename : string) : M frame :=
  fun w =>
    match files w !! filename with
    | None => (Raise (Exn FileNotFoundError
                 ("[Errno 2] No such file or directory: '" +:+ filename +:+ "'")), w)
    | Some content =>
        match read_fault env filename with
        | Some (c, m) => (Raise (Exn (Other c) m), w)
        | None => (Ret (parse_csv env content), w)
        end
    end.

(** [df.to_csv(filename, index=False)]: the file is created or replaced by
    the text pandas writes for the frame. *)
Definition to_csv (env : Env) (df : frame) (filename : string) : M unit :=
  fun w =>
    match write_fault env filename with
    | Some f =>
        (Raise (Exn (Other (wf_class f)) (wf_msg f)),
         mkWorld (heap w) (stdout w)
           (match wf_left f with
            | Some content => <[filename := content]> (files w)
            | None => delete filename (files w)
            end)
           (ticks w))
    | None =>
        (Ret tt, mkWorld (heap w) (stdout w)
                   (<[filename := format_csv env df]> (files w)) (ticks w))
    end.

(** Lines 85-108. *)
Definition save_to_csv (env : Env) (data : loc) (filename : string) : M bool :=
  d <- load data ;;
  match d with
  | [] => print "❌ No data to save!" ;; ret false
  | _ :: _ =>
      d' <- load data ;;
      let df := DataFrame d' in
      try_except
        (try_except_FileNotFoundError
           (existing_df <- read_csv env filename ;;
            let combined_df := pd_concat existing_df df in
            to_csv env combined_df filename ;;
            print ("📁 Data appended to " +:+ filename))
           (to_csv env df filename ;;
            print ("📁 New file created: " +:+ filename)) ;;
         ret true)
        (fun e => print ("❌ Error saving CSV: " +:+ str_exn e) ;; ret false)
  end.

(** Lines 122-131: one line of the table. *)
Definition display_coin (coin : coin_info) : M unit :=
  let change := Change_24h coin in
  let change_display :=
    if startswith "+" change then "🟢 " +:+ change
    else if startswith "-" change then "🔴 " +:+ change
    else "⚪ " +:+ change in
  print (ljust 4 (str_nat (Rank coin)) +:+ " " +:+ ljust 15 (Name coin) +:+ " "
         +:+ ljust 15 (Price coin) +:+ " " +:+ ljust 12 change_display +:+ " "
         +:+ ljust 20 (Market_Cap coin)).

(** Lines 110-131. *)
Definition display_data (data : loc) : M unit :=
  d <- load data ;;
  match d with
  | [] => print "❌ No data to display!"
  | _ :: _ =>
      print (String newline (repeat_char "="%char 80)) ;;
      print "🎯 TOP 10 CRYPTOCURRENCIES - LIVE PRICES" ;;
      print (repeat_char "="%char 80) ;;
      print (ljust 4 "Rank" +:+ " " +:+ ljust 15 "Name" +:+ " " +:+ ljust 15 "Price"
             +:+ " " +:+ ljust 12 "24h Change" +:+ " " +:+ ljust 20 "Market Cap") ;;
      print (repeat_char "-"%char 80) ;;
      coins <- load data ;;
      for_each display_coin coins
  end.

(** Lines 142 and 143: the two comprehensions. *)
Definition gainers (d : list coin_info) : list coin_info :=
  List.filter (fun coin => startswith "+" (Change_24h coin)) d.
Definition losers (d : list coin_info) : list coin_info :=
  List.filter (fun coin => startswith "-" (Change_24h coin)) d.

(** The keys of lines 150 and 155. *)
Definition gainer_key (x : coin_info) : result Q :=
  float (remove_char "%"%char (remove_char "+"%char (Change_24h x))).
Definition loser_key (x : coin_info) : result Q :=
  float (remove_char "%"%char (remove_char "-"%char (Change_24h x))).

(** Lines 133-156. *)
Definition analyze_data (data : loc) : M unit :=
  d <- load data ;;
  match d with
  | [] => ret tt
  | _ :: _ =>
      print (String newline "🔍 QUICK ANALYSIS") ;;
      print (repeat_char "-"%char 40) ;;
      d1 <- load data ;;
      let gainers := gainers d1 in
      d2 <- load data ;;
      let losers := losers d2 in
      print ("📈 Gainers: " +:+ str_nat (List.length gainers) +:+ " coins") ;;
      print ("📉 Losers: " +:+ str_nat (List.length losers) +:+ " coins") ;;
      (match gainers with
       | [] => ret tt
       | _ :: _ =>
           top_gainer <- lift (py_max gainers gainer_key) ;;
           print ("🏆 Top Gainer: " +:+ Name top_gainer
                  +:+ " (" +:+ Change_24h top_gainer +:+ ")")
       end) ;;
      match losers with
      | [] => ret tt
      | _ :: _ =>
          top_loser <- lift (py_min losers loser_key) ;;
          print ("💥 Top Loser: " +:+ Name top_loser
                 +:+ " (" +:+ Change_24h top_loser +:+ ")")
      end
  end.

(** The default of the [filename] parameter of [save_to_csv]. *)
Definition default_filename : string := "crypto_prices.csv".

(** Lines 158-180. *)
Definition main (env : Env) : M unit :=
  print "🚀 CRYPTO TRACKER - TOP 10 COINS" ;;
  print (repeat_char "="%char 50) ;;
  crypto_data <- scrape_crypto_prices env ;;
  d <- load crypto_data ;;
  match d with
  | _ :: _ =>
      display_data crypto_data ;;
      save_to_csv env crypto_data default_filename ;;
      analyze_data crypto_data ;;
      now <- datetime_now env ;;
      print (String newline ("⏰ Last updated: " +:+ now)) ;;
      print "💡 Run again to update prices!"
  | [] => print "❌ Failed to fetch data. Please try again."
  end.

(** ** A pure view of the extraction loop *)

(** The snapshot the loop body builds from a row at position [i] when the
    clock reads [stamp], if it builds one. *)
Definition row_snapshot (i : nat) (stamp : string) (row : WebElement) : option coin_info :=
  match text row with
  | Ret row_text =>
      match split_lines row_text with
      | _ :: name :: symbol :: price :: change :: market_cap :: _ =>
          Some (CoinInfo i name symbol price change market_cap stamp)
      | _ => None
      end
  | Raise _ => None
  end.

(** The snapshots of the rows at positions [i], [i+1], ..., the clock having
    been read [tick] times before. *)
Fixpoint snapshots (env : Env) (tick i : nat) (rows : list WebElement) : list coin_info :=
  match rows with
  | [] => []
  | row :: rest =>
      match row_snapshot i (clock env tick) row with
      | Some coin => coin :: snapshots env (S tick) (S i) rest
      | None => snapshots env tick (S i) rest
      end
  end.

(** A row whose text is read without error. *)
Definition row_of_text (s : string) : WebElement := {| text := Ret s |}.

(** The number of line fragments of a row, when its text can be read. *)
Definition fragments (row : WebElement) : option (list string) :=
  match text row with
  | Ret row_text => Some (split_lines row_text)
  | Raise _ => None
  end.

(** The batch one run extracts, the clock having been read [tick] times
    before: nothing when the page, the table or its rows cannot be had. *)
Definition extracted (env : Env) (tick : nat) : list coin_info :=
  match page_get env, table_wait env, table_rows env with
  | None, None, Ret rows => snapshots env tick 1 (firstn 10 rows)
  | _, _, _ => []
  end.

(** The first failure inside the [try] of [scrape_crypto_prices], if any. *)
Definition scrape_failure (env : Env) : option exn :=
  match page_get env, table_wait env, table_rows env with
  | Some e, _, _ => Some e
  | None, Some e, _ => Some e
  | None, None, Raise e => Some e
  | None, None, Ret _ => None
  end.

(** ** Sample data *)

(** ['\n'.join(l)]. *)
Fixpoint join_lines (l : list string) : string :=
  match l with
  | [] => EmptyString
  | [s] => s
  | s :: rest => s +:+ String newline (join_lines rest)
  end.

(** The text of a row of the listing: a blank first line, then name,
    symbol, price, change and market capitalisation. *)
Definition listing_text (name symbol price change market_cap : string) : string :=
  join_lines [""; name; symbol; price; change; market_cap].

Definition bitcoin_text : string :=
  listing_text "Bitcoin" "BTC" "$60,000" "+2.5%" "$1.2T".

Definition bitcoin_row : WebElement := row_of_text bitcoin_text.

(** A row that is still loading: two fragments only. *)
Definition loading_row : WebElement := row_of_text (join_lines ["2"; "Ethereum"]).

(** The defaults of pandas, as far as the samples need them: a field that
    is one of the markers of a missing value is read as [NaN], a field of
    digits as an integer, any other field as text; a missing value is
    written as an empty field.  (pandas decides on numbers column by column
    and also reads decimal numbers as floats; the samples have neither a
    mixed column nor a decimal number.) *)
Definition na_values : list string :=
  [EmptyString; "#N/A"; "#N/A N/A"; "#NA"; "-1.#IND"; "-1.#QNAN"; "-NaN"; "-nan";
   "1.#IND"; "1.#QNAN"; "<NA>"; "N/A"; "NA"; "NULL"; "NaN"; "None"; "n/a";
   "nan"; "null"].

Definition integer_field (s : string) : option Z :=
  match s with
  | String "-"%char rest =>
      match int_part rest 0%Z 0 with
      | Some (n, S _, None) => Some (- n)%Z
      | _ => None
      end
  | _ =>
      match int_part s 0%Z 0 with
      | Some (n, S _, None) => Some n
      | _ => None
      end
  end.

Definition parse_field (s : string) : cell :=
  if existsb (String.eqb s) na_values then NaN
  else match integer_field s with
       | Some n => Integer n
       | None => Text s
       end.

Definition parse_defaults (content : csv) : frame :=
  match content with
  | [] => []
  | names :: lines => map (fun line => combine names (map parse_field line)) lines
  end.

Definition format_field (c : cell) : string :=
  match c with
  | Text s => s
  | Integer n => NilEmpty.string_of_int (Z.to_int n)
  | Float repr => repr
  | NaN => EmptyString
  end.

Definition format_defaults (df : frame) : csv :=
  match df with
  | [] => []
  | row :: _ =>
      map fst row :: map (fun r => map (fun column => format_field (snd column)) r) df
  end.

(** A run in which nothing fails, over the given rows. *)
Definition env_of_rows (rows : list WebElement) : Env :=
  {| launch := None;
     page_get := None;
     cookie_button := Some (Exn (Other "TimeoutException") "Message: ");
     table_wait := None;
     table_rows := Ret rows;
     quit := None;
     clock := fun _ => "2024-05-01 12:00:00";
     read_fault := fun _ => None;
     write_fault := fun _ => None;
     parse_csv := parse_defaults;
     format_csv := format_defaults |}.

(** The state before a first run: no object, no output, no file. *)
Definition world0 : World := mkWorld ∅ [] ∅ 0.

(** A page whose first row is dropped and whose second row is kept. *)
Definition env_gap : Env := env_of_rows [loading_row; bitcoin_row].

(** ** Faults of the store *)

(** Reading the store fails: the file is there and cannot be read. *)
Definition read_error (env : Env) (w : World) (filename : string) : bool :=
  match files w !! filename, read_fault env filename with
  | Some _, Some _ => true
  | _, _ => false
  end.

(** Writing the store fails. *)
Definition write_error (env : Env) (filename : string) : bool :=
  match write_fault env filename with
  | Some _ => true
  | None => false
  end.

(** An I/O error occurs when a non-empty batch is saved: the read fails, or
    the read goes through (or finds no file) and the write fails. *)
Definition io_error (env : Env) (w : World) (filename : string) : bool :=
  if read_error env w filename then true else write_error env filename.

(** The frame [save_to_csv] writes for a non-empty batch: the frame parsed
    from the store followed by the rows of the batch, or the rows of the
    batch alone when there is no store. *)
Definition combined (env : Env) (w : World) (filename : string)
    (batch : list coin_info) : frame :=
  match files w !! filename with
  | Some content => pd_concat (parse_csv env content) (DataFrame batch)
  | None => DataFrame batch
  end.

(** What the disk holds after a write of [df] to [filename]. *)
Definition written (env : Env) (df : frame) (filename : string)
    (fs : gmap string csv) : gmap string csv :=
  match write_fault env filename with
  | None => <[filename := format_csv env df]> fs
  | Some f =>
      match wf_left f with
      | Some content => <[filename := content]> fs
      | None => delete filename fs
      end
  end.

(** The line [save_to_csv] prints for a non-empty batch. *)
Definition save_line (env : Env) (w : World) (filename : string) : string :=
  match files w !! filename with
  | Some _ =>
      match read_fault env filename with
      | Some (_, m) => "❌ Error saving CSV: " +:+ m
      | None =>
          match write_fault env filename with
          | Some f => "❌ Error saving CSV: " +:+ wf_msg f
          | None => "📁 Data appended to " +:+ filename
          end
      end
  | None =>
      match write_fault env filename with
      | Some f => "❌ Error saving CSV: " +:+ wf_msg f
      | None => "📁 New file created: " +:+ filename
      end
  end.

(** A program that leaves every list object as it was. *)
Definition keeps_heap {A} (m : M A) : Prop :=
  forall w, heap (snd (m w)) = heap w.

(** A snapshot with the given rank, name and change. *)
Definition sample_coin (rank : nat) (name symbol change : string) : coin_info :=
  CoinInfo rank name symbol "$1.00" change "$1.0B" "2024-05-01 12:00:00".

(** A state in which the list object 0 holds [batch] and the store holds
    [prior]. *)
Definition world_with (batch : list coin_info) (prior : option csv) : World :=
  mkWorld {[0 := batch]} []
    (match prior with
     | Some content => {[default_filename := content]}
     | None => ∅
     end) 0.




(** ** A pure view of the analysis *)

(** The coin line 150 picks, if there are gainers; the exception if a key
    cannot be computed. *)
Definition top_gainer (d : list coin_info) : result (option coin_info) :=
  match gainers d with
  | [] => Ret None
  | _ :: _ => bind_result (py_max (gainers d) gainer_key) (fun coin => Ret (Some coin))
  end.

(** The coin line 155 picks, if there are losers. *)
Definition top_loser (d : list coin_info) : result (option coin_info) :=
  match losers d with
  | [] => Ret None
  | _ :: _ => bind_result (py_min (losers d) loser_key) (fun coin => Ret (Some coin))
  end.

(** The four lines every analysis of a non-empty batch starts with. *)
Definition count_lines (d : list coin_info) : list string :=
  [String newline "🔍 QUICK ANALYSIS";
   repeat_char "-"%char 40;
   "📈 Gainers: " +:+ str_nat (List.length (gainers d)) +:+ " coins";
   "📉 Losers: " +:+ str_nat (List.length (losers d)) +:+ " coins"].

Definition top_line (label : string) (top : option coin_info) : list string :=
  match top with
  | Some coin => [label +:+ Name coin +:+ " (" +:+ Change_24h coin +:+ ")"]
  | None => []
  end.

(** The world after [out] has been printed. *)
Definition printed (w : World) (out : list string) : World :=
  mkWorld (heap w) (stdout w ++ out) (files w) (ticks w).


(** Changes that carry no sign. *)
Definition batch_flat : list coin_info :=
  [sample_coin 1 "Tether" "USDT" "0.0%"; sample_coin 2 "USDC" "USDC" "0.0%"].

(** Two losers: a small loss first, a large loss second. *)
Definition batch_losers : list coin_info :=
  [sample_coin 1 "Bitcoin" "BTC" "-1.0%"; sample_coin 2 "Ethereum" "ETH" "-5.0%"].


(** A run whose browser does not start. *)
Definition env_no_browser : Env :=
  {| launch := Some (Exn (Other "WebDriverException") "Message: unknown error: cannot find Chrome binary");
     page_get := None;
     cookie_button := None;
     table_wait := None;
     table_rows := Ret [bitcoin_row];
     quit := None;
     clock := fun _ => "2024-05-01 12:00:00";
     read_fault := fun _ => None;
     write_fault := fun _ => None;
     parse_csv := parse_defaults;
     format_csv := format_defaults |}.

(** A page with one coin whose change has a thousands separator. *)
Definition env_thousands : Env :=
  env_of_rows [row_of_text (listing_text "Pepe" "PEPE" "$0.01" "+1,234.56%" "$4.2B")].

(** A page that cannot be loaded. *)
Definition env_offline : Env :=
  {| launch := None;
     page_get := Some (Exn (Other "WebDriverException") "Message: net::ERR_NAME_NOT_RESOLVED");
     cookie_button := None;
     table_wait := None;
     table_rows := Ret [bitcoin_row];
     quit := None;
     clock := fun _ => "2024-05-01 12:00:00";
     read_fault := fun _ => None;
     write_fault := fun _ => None;
     parse_csv := parse_defaults;
     format_csv := format_defaults |}.

(** * Properties *)

(** ** Running the monad *)

Lemma bind_ret_run {A B} (m : M A) (k : A -> M B) (w w' : World) (a : A) :
  m w = (Ret a, w') -> bind m k w = k a w'.
Proof. intros H. unfold bind. now rewrite H. Qed.

Lemma world_eta (w : World) :
  mkWorld (heap w) (stdout w) (files w) (ticks w) = w.
Proof. now destruct w. Qed.

(** ** Line fragments *)

Lemma split_lines_not_nil (s : string) : split_lines s <> [].
Proof.
  destruct s as [|c s]; simpl; [discriminate|].
  destruct (Ascii.eqb c newline); [discriminate|].
  destruct (split_lines s); discriminate.
Qed.

(** Six fragments or more: the list has the shape the dictionary reads. *)
Lemma six_fragments (l : list string) :
  6 <= List.length l ->
  exists f0 f1 f2 f3 f4 f5 rest, l = f0 :: f1 :: f2 :: f3 :: f4 :: f5 :: rest.
Proof.
  intros H.
  destruct l as [|f0 [|f1 [|f2 [|f3 [|f4 [|f5 rest]]]]]]; simpl in H; try lia.
  now exists f0, f1, f2, f3, f4, f5, rest.
Qed.

Lemma few_fragments (l : list string) :
  List.length l < 6 -> (6 <=? List.length l) = false.
Proof. intros H. apply Nat.leb_gt. exact H. Qed.

(** ** The loop body *)

(** The line printed for a snapshot (line 72). *)
Lemma scrape_row_some (env : Env) (crypto_data : loc) (i : nat) (row : WebElement)
    (w : World) (coin : coin_info) :
  row_snapshot i (clock env (ticks w)) row = Some coin ->
  scrape_row env crypto_data i row w =
    (Ret tt,
     mkWorld (<[crypto_data := deref w crypto_data ++ [coin]]> (heap w))
       (stdout w ++ ["✅ " +:+ str_nat i +:+ ". " +:+ Name coin +:+ " - $"
                     +:+ Price coin +:+ " (" +:+ Change_24h coin +:+ ")"])
       (files w) (S (ticks w))).
Proof.
  unfold row_snapshot, scrape_row, try_except, bind, lift.
  destruct (text row) as [row_text|e]; [|discriminate].
  destruct (split_lines row_text) as [|f0 [|f1 [|f2 [|f3 [|f4 [|f5 rest]]]]]];
    try discriminate.
  intros [= <-]. reflexivity.
Qed.

Lemma scrape_row_none (env : Env) (crypto_data : loc) (i : nat) (row : WebElement)
    (w : World) :
  row_snapshot i (clock env (ticks w)) row = None ->
  exists out,
    scrape_row env crypto_data i row w =
      (Ret tt, mkWorld (heap w) (stdout w ++ out) (files w) (ticks w)).
Proof.
  unfold row_snapshot, scrape_row, try_except, bind, lift.
  destruct (text row) as [row_text|e].
  - destruct (split_lines row_text) as [|f0 [|f1 [|f2 [|f3 [|f4 [|f5 rest]]]]]];
      try discriminate; intros _; exists []; simpl;
      now rewrite app_nil_r, world_eta.
  - intros _. eexists. reflexivity.
Qed.

Lemma deref_insert (w : World) (l : loc) (v : list coin_info) (out : list string)
    (fs : gmap string csv) (t : nat) :
  deref (mkWorld (<[l := v]> (heap w)) out fs t) l = v.
Proof. unfold deref. simpl. now rewrite lookup_insert_eq. Qed.

Lemma deref_same (w : World) (out : list string) (fs : gmap string csv)
    (t : nat) (l : loc) :
  deref (mkWorld (heap w) out fs t) l = deref w l.
Proof. reflexivity. Qed.

Lemma deref_lookup (w : World) (l : loc) (v : list coin_info) :
  heap w !! l = Some v -> deref w l = v.
Proof. intros H. unfold deref. now rewrite H. Qed.

(** ** The loop *)

Lemma for_enumerate_app {A} (body : nat -> A -> M unit) (pre post : list A) (i : nat)
    (w : World) :
  for_enumerate body i (pre ++ post) w =
  (for_enumerate body i pre ;; for_enumerate body (i + List.length pre) post) w.
Proof.
  revert i w. induction pre as [|x pre IH]; intros i w; simpl.
  - unfold bind, ret. now rewrite Nat.add_0_r.
  - unfold bind in *. destruct (body i x w) as [[[]|e] w1]; [|reflexivity].
    rewrite IH. now rewrite Nat.add_succ_r.
Qed.

(** The loop never raises; it appends to the list the snapshots of the
    rows, and touches neither the files nor any other list. *)
Lemma for_rows_run (env : Env) (crypto_data : loc) (rows : list WebElement) :
  forall (i : nat) (w : World) (acc : list coin_info),
    heap w !! crypto_data = Some acc ->
    exists out,
      for_enumerate (scrape_row env crypto_data) i rows w =
        (Ret tt,
         mkWorld (<[crypto_data := acc ++ snapshots env (ticks w) i rows]> (heap w))
           (stdout w ++ out) (files w)
           (ticks w + List.length (snapshots env (ticks w) i rows))).
Proof.
  induction rows as [|row rows IH]; intros i w acc Hacc; simpl.
  - exists []. unfold ret. rewrite !app_nil_r, Nat.add_0_r.
    rewrite insert_id by exact Hacc. now rewrite world_eta.
  - destruct (row_snapshot i (clock env (ticks w)) row) as [coin|] eqn:Hrow.
    + rewrite (bind_ret_run _ _ _ _ _ (scrape_row_some env crypto_data i row w coin Hrow)).
      rewrite (deref_lookup _ _ _ Hacc).
      edestruct (IH (S i) (mkWorld (<[crypto_data := acc ++ [coin]]> (heap w))
                       (stdout w ++ ["✅ " +:+ str_nat i +:+ ". " +:+ Name coin +:+ " - $"
                          +:+ Price coin +:+ " (" +:+ Change_24h coin +:+ ")"])
                       (files w) (S (ticks w))) (acc ++ [coin])) as [out Hout].
      { simpl. apply lookup_insert_eq. }
      rewrite Hout. simpl. eexists.
      rewrite insert_insert_eq, <- !app_assoc. simpl.
      rewrite Nat.add_succ_r. reflexivity.
    + destruct (scrape_row_none env crypto_data i row w Hrow) as [out1 H1].
      rewrite (bind_ret_run _ _ _ _ _ H1).
      edestruct (IH (S i) (mkWorld (heap w) (stdout w ++ out1) (files w) (ticks w)) acc)
        as [out Hout]; [exact Hacc|].
      rewrite Hout. simpl. eexists. rewrite <- app_assoc. reflexivity.
Qed.

(** ** Ranks of the snapshots *)

Lemma row_snapshot_rank (i : nat) (stamp : string) (row : WebElement) (coin : coin_info) :
  row_snapshot i stamp row = Some coin -> Rank coin = i.
Proof.
  unfold row_snapshot. destruct (text row) as [row_text|e]; [|discriminate].
  destruct (split_lines row_text) as [|f0 [|f1 [|f2 [|f3 [|f4 [|f5 rest]]]]]];
    try discriminate.
  now intros [= <-].
Qed.

Lemma snapshots_length (env : Env) (rows : list WebElement) :
  forall tick i, List.length (snapshots env tick i rows) <= List.length rows.
Proof.
  induction rows as [|row rows IH]; intros tick i; simpl; [lia|].
  destruct (row_snapshot i (clock env tick) row).
  - simpl. specialize (IH (S tick) (S i)). lia.
  - specialize (IH tick (S i)). lia.
Qed.

Lemma snapshots_rank_bounds (env : Env) (rows : list WebElement) :
  forall tick i,
    Forall (fun coin => i <= Rank coin < i + List.length rows) (snapshots env tick i rows).
Proof.
  induction rows as [|row rows IH]; intros tick i; simpl; [constructor|].
  destruct (row_snapshot i (clock env tick) row) as [coin|] eqn:Hrow.
  - constructor.
    + rewrite (row_snapshot_rank _ _ _ _ Hrow). lia.
    + eapply Forall_impl; [apply (IH (S tick) (S i))|]. simpl. intros c Hc. lia.
  - eapply Forall_impl; [apply (IH tick (S i))|]. simpl. intros c Hc. lia.
Qed.

Lemma snapshots_rank_sorted (env : Env) (rows : list WebElement) :
  forall tick i, StronglySorted lt (map Rank (snapshots env tick i rows)).
Proof.
  induction rows as [|row rows IH]; intros tick i; simpl; [constructor|].
  destruct (row_snapshot i (clock env tick) row) as [coin|] eqn:Hrow; [|apply IH].
  simpl. constructor; [apply IH|].
  rewrite (row_snapshot_rank _ _ _ _ Hrow).
  apply Forall_map.
  eapply Forall_impl; [apply (snapshots_rank_bounds env rows (S tick) (S i))|].
  simpl. intros c Hc. lia.
Qed.

Lemma sorted_lt_NoDup (l : list nat) : StronglySorted lt l -> NoDup l.
Proof.
  induction 1 as [|x l Hs IH Hx]; constructor; [|exact IH].
  intros Hin. rewrite Forall_forall in Hx.
  assert (x < x) by (apply Hx, Hin). lia.
Qed.

(** When no row is dropped the ranks are [i], [i+1], ... without a gap. *)
Lemma snapshots_rank_contiguous (env : Env) (rows : list WebElement) :
  forall tick i,
    Forall (fun row => exists l, fragments row = Some l /\ 6 <= List.length l) rows ->
    map Rank (snapshots env tick i rows) = seq i (List.length rows).
Proof.
  induction rows as [|row rows IH]; intros tick i Hall; simpl; [reflexivity|].
  inversion Hall as [|r rs [l [Hl Hlen]] Hrest]; subst.
  unfold fragments in Hl. unfold row_snapshot.
  destruct (text row) as [row_text|e]; [|discriminate].
  injection Hl as <-.
  destruct (six_fragments _ Hlen) as (f0 & f1 & f2 & f3 & f4 & f5 & rest & ->).
  simpl. f_equal. now apply IH.
Qed.

(** ** The whole extraction *)

Lemma scrape_launch_failure (env : Env) (w : World) (e : exn) :
  launch env = Some e -> scrape_crypto_prices env w = (Raise e, w).
Proof.
  intros H. unfold scrape_crypto_prices, setup_driver, call, bind, raise.
  now rewrite H.
Qed.

Lemma accept_cookies_run (env : Env) (w : World) :
  exists line,
    accept_cookies env w =
      (Ret tt, mkWorld (heap w) (stdout w ++ [line]) (files w) (ticks w)).
Proof.
  unfold accept_cookies, try_except, bind, call, print, raise, ret.
  destruct (cookie_button env); eexists; reflexivity.
Qed.

(** With a browser that starts and stops, the extraction returns a new list
    holding the batch; a failure in between is printed. *)
Lemma scrape_run (env : Env) (w : World) :
  launch env = None -> quit env = None ->
  exists out,
    scrape_crypto_prices env w =
      (Ret (fresh (dom (heap w))),
       mkWorld (<[fresh (dom (heap w)) := extracted env (ticks w)]> (heap w))
         (stdout w ++ out) (files w)
         (ticks w + List.length (extracted env (ticks w))))
    /\ forall e, scrape_failure env = Some e ->
         In ("❌ Scraping error: " +:+ str_exn e) out.
Proof.
  intros Hlaunch Hquit.
  unfold scrape_crypto_prices, setup_driver, extracted, scrape_failure.
  rewrite Hlaunch, Hquit.
  unfold call, try_finally, try_except, bind, new_list, lift, print, raise, ret.
  simpl.
  set (l := fresh (dom (heap w))).
  destruct (page_get env) as [e1|]; simpl.
  { eexists. split.
    - rewrite <- app_assoc, Nat.add_0_r. reflexivity.
    - intros e [= <-]. simpl. auto. }
  match goal with
  | |- context [accept_cookies env ?W] =>
      destruct (accept_cookies_run env W) as [line ->]
  end.
  simpl.
  destruct (table_wait env) as [e2|]; simpl.
  { eexists. split.
    - rewrite <- !app_assoc, Nat.add_0_r. reflexivity.
    - intros e [= <-]. simpl. auto. }
  destruct (table_rows env) as [rows|e3]; simpl.
  - match goal with
    | |- context [for_enumerate _ 1 _ ?W] =>
        destruct (for_rows_run env l (firstn 10 rows) 1 W []) as [out ->];
          [simpl; apply lookup_insert_eq|]
    end.
    simpl. eexists. split.
    + rewrite insert_insert_eq, <- !app_assoc. reflexivity.
    + discriminate.
  - eexists. split.
    + rewrite <- !app_assoc, Nat.add_0_r. reflexivity.
    + intros e [= <-]. simpl. auto 6.
Qed.

Lemma scrape_quit_failure (env : Env) (w : World) (e : exn) :
  launch env = None -> quit env = Some e ->
  exists w', scrape_crypto_prices env w = (Raise e, w').
Proof.
  intros Hlaunch Hquit.
  unfold scrape_crypto_prices, setup_driver.
  rewrite Hlaunch, Hquit.
  unfold call, try_finally, bind, raise, ret. simpl.
  match goal with
  | |- context [try_except ?b ?h ?W] => destruct (try_except b h W) as [r w1]
  end.
  eexists. reflexivity.
Qed.

(** A run that returns had a browser that started and stopped. *)
Lemma scrape_returns (env : Env) (w w' : World) (l : loc) :
  scrape_crypto_prices env w = (Ret l, w') ->
  launch env = None /\ quit env = None.
Proof.
  intros H.
  destruct (launch env) as [e|] eqn:Hlaunch.
  { rewrite (scrape_launch_failure env w e Hlaunch) in H. discriminate. }
  destruct (quit env) as [e|] eqn:Hquit; [|auto].
  destruct (scrape_quit_failure env w e Hlaunch Hquit) as [w1 H1].
  rewrite H1 in H. discriminate.
Qed.

(** ** Positions *)

Lemma snapshots_app (env : Env) (pre post : list WebElement) :
  forall tick i,
    snapshots env tick i (pre ++ post) =
    snapshots env tick i pre ++
    snapshots env (tick + List.length (snapshots env tick i pre)) (i + List.length pre) post.
Proof.
  induction pre as [|row pre IH]; intros tick i; simpl.
  - now rewrite !Nat.add_0_r.
  - destruct (row_snapshot i (clock env tick) row) as [coin|]; simpl.
    + rewrite IH. now rewrite !Nat.add_succ_r.
    + rewrite IH. now rewrite !Nat.add_succ_r.
Qed.

(** Every snapshot comes from the row whose position is its rank. *)
Lemma snapshots_source (env : Env) (rows : list WebElement) :
  forall tick i coin,
    In coin (snapshots env tick i rows) ->
    exists k stamp row,
      nth_error rows k = Some row /\ Rank coin = i + k /\
      row_snapshot (i + k) stamp row = Some coin.
Proof.
  induction rows as [|row rows IH]; intros tick i coin Hin; simpl in Hin; [tauto|].
  destruct (row_snapshot i (clock env tick) row) as [c|] eqn:Hrow.
  - destruct Hin as [<-|Hin].
    + exists 0, (clock env tick), row. rewrite Nat.add_0_r.
      split; [reflexivity|]. split; [|exact Hrow].
      exact (row_snapshot_rank _ _ _ _ Hrow).
    + destruct (IH _ _ _ Hin) as (k & stamp & r & Hk & Hrank & Hsnap).
      exists (S k), stamp, r. rewrite Nat.add_succ_r. auto.
  - destruct (IH _ _ _ Hin) as (k & stamp & r & Hk & Hrank & Hsnap).
    exists (S k), stamp, r. rewrite Nat.add_succ_r. auto.
Qed.

(** ** Claims on the extraction *)

(** C1.  A row whose text splits into at least six fragments, parsed at
    position [i], adds exactly one snapshot to the batch: its rank is [i] and
    its name, symbol, price, change and market capitalisation are fragments
    1 to 5; fragment 0 is not used.  Within the loop the row that follows
    [pre] is parsed at position [length pre + 1].  The Bitcoin row at
    position 1 gives rank 1, Bitcoin, BTC, $60,000, +2.5%, $1.2T. *)
Theorem scrape_row_six_fragments :
  (forall (env : Env) (crypto_data : loc) (i : nat) (row : WebElement)
          (row_text : string) (w : World),
      text row = Ret row_text ->
      6 <= List.length (split_lines row_text) ->
      exists coin line,
        scrape_row env crypto_data i row w =
          (Ret tt,
           mkWorld (<[crypto_data := deref w crypto_data ++ [coin]]> (heap w))
             (stdout w ++ [line]) (files w) (S (ticks w)))
        /\ Rank coin = i
        /\ nth_error (split_lines row_text) 1 = Some (Name coin)
        /\ nth_error (split_lines row_text) 2 = Some (Symbol coin)
        /\ nth_error (split_lines row_text) 3 = Some (Price coin)
        /\ nth_error (split_lines row_text) 4 = Some (Change_24h coin)
        /\ nth_error (split_lines row_text) 5 = Some (Market_Cap coin)
        /\ Timestamp coin = clock env (ticks w)
        /\ forall (pre post : list WebElement) (tick : nat),
             exists coin' before after,
               snapshots env tick 1 (pre ++ row :: post) = before ++ coin' :: after
               /\ Rank coin' = S (List.length pre)
               /\ (Name coin', Symbol coin', Price coin', Change_24h coin', Market_Cap coin')
                  = (Name coin, Symbol coin, Price coin, Change_24h coin, Market_Cap coin))
  /\ split_lines bitcoin_text = [""; "Bitcoin"; "BTC"; "$60,000"; "+2.5%"; "$1.2T"]
  /\ forall (env : Env) (crypto_data : loc) (w : World),
       scrape_row env crypto_data 1 bitcoin_row w =
         (Ret tt,
          mkWorld (<[crypto_data := deref w crypto_data ++
                      [CoinInfo 1 "Bitcoin" "BTC" "$60,000" "+2.5%" "$1.2T"
                         (clock env (ticks w))]]> (heap w))
            (stdout w ++ ["✅ 1. Bitcoin - $$60,000 (+2.5%)"]) (files w) (S (ticks w))).
Proof.
  split; [|split].
  - intros env crypto_data i row row_text w Htext Hlen.
    destruct (six_fragments _ Hlen) as (f0 & f1 & f2 & f3 & f4 & f5 & rest & Hsplit).
    assert (Hsnap : forall j stamp,
               row_snapshot j stamp row = Some (CoinInfo j f1 f2 f3 f4 f5 stamp)).
    { intros j stamp. unfold row_snapshot. now rewrite Htext, Hsplit. }
    exists (CoinInfo i f1 f2 f3 f4 f5 (clock env (ticks w))). eexists.
    split; [apply scrape_row_some, Hsnap|].
    rewrite Hsplit. simpl. repeat (split; [reflexivity|]).
    intros pre post tick.
    rewrite snapshots_app. simpl. rewrite Hsnap.
    do 3 eexists. split; [reflexivity|]. simpl. auto.
  - reflexivity.
  - intros env crypto_data w. now apply scrape_row_some.
Qed.

Lemma scrape_row_six_fragments_witness :
  text bitcoin_row = Ret bitcoin_text /\
  6 <= List.length (split_lines bitcoin_text) /\
  exists coin line,
    scrape_row (env_of_rows [bitcoin_row]) 0 3 bitcoin_row world0 =
      (Ret tt,
       mkWorld (<[0 := deref world0 0 ++ [coin]]> (heap world0))
         (stdout world0 ++ [line]) (files world0) (S (ticks world0)))
    /\ Rank coin = 3.
Proof.
  split; [reflexivity|]. split; [vm_compute; lia|].
  destruct (proj1 scrape_row_six_fragments (env_of_rows [bitcoin_row]) 0 3
              bitcoin_row bitcoin_text world0 eq_refl)
    as (coin & line & Hrun & Hrank & _).
  - vm_compute. lia.
  - exists coin, line. split; [exact Hrun | exact Hrank].
Defined.

(** C9.  A row whose text splits into fewer than six fragments gives no
    snapshot and raises nothing: the loop body returns and leaves the
    world as it was.  The rows after it are processed as if they followed
    the rows before it directly, at their own positions. *)
Theorem short_row_skipped (env : Env) (crypto_data : loc) (row : WebElement)
    (row_text : string) :
  text row = Ret row_text ->
  List.length (split_lines row_text) < 6 ->
  (forall (i : nat) (w : World),
      scrape_row env crypto_data i row w = (Ret tt, w))
  /\ (forall (i : nat) (stamp : string), row_snapshot i stamp row = None)
  /\ (forall (pre post : list WebElement) (i : nat) (w : World),
        for_enumerate (scrape_row env crypto_data) i (pre ++ row :: post) w =
        (for_enumerate (scrape_row env crypto_data) i pre ;;
         for_enumerate (scrape_row env crypto_data) (S (i + List.length pre)) post) w)
  /\ (forall (pre post : list WebElement) (tick i : nat),
        snapshots env tick i (pre ++ row :: post) =
        snapshots env tick i pre ++
        snapshots env (tick + List.length (snapshots env tick i pre))
          (S (i + List.length pre)) post).
Proof.
  intros Htext Hlen.
  assert (Hbody : forall i w, scrape_row env crypto_data i row w = (Ret tt, w)).
  { intros i w. unfold scrape_row, try_except, bind, lift. rewrite Htext.
    now rewrite (few_fragments _ Hlen). }
  assert (Hsnap : forall i stamp, row_snapshot i stamp row = None).
  { intros i stamp. unfold row_snapshot. rewrite Htext.
    destruct (split_lines row_text) as [|f0 [|f1 [|f2 [|f3 [|f4 [|f5 rest]]]]]];
      try reflexivity.
    simpl in Hlen. lia. }
  repeat split; [exact Hbody | exact Hsnap | |].
  - intros pre post i w. rewrite for_enumerate_app. simpl.
    unfold bind.
    destruct (for_enumerate (scrape_row env crypto_data) i pre w) as [[[]|e] w1];
      [|reflexivity].
    now rewrite Hbody.
  - intros pre post tick i. rewrite snapshots_app. simpl.
    now rewrite Hsnap.
Qed.

Lemma short_row_skipped_witness :
  text loading_row = Ret (join_lines ["2"; "Ethereum"]) /\
  List.length (split_lines (join_lines ["2"; "Ethereum"])) < 6 /\
  scrape_row env_gap 0 1 loading_row world0 = (Ret tt, world0) /\
  snapshots env_gap 0 1 ([] ++ loading_row :: [bitcoin_row]) =
    [] ++ snapshots env_gap 0 2 [bitcoin_row].
Proof.
  split; [reflexivity|]. split; [vm_compute; lia|].
  destruct (short_row_skipped env_gap 0 loading_row (join_lines ["2"; "Ethereum"])
              eq_refl) as (Hbody & _ & _ & Hsnap).
  - vm_compute. lia.
  - split; [apply Hbody | apply (Hsnap [] [bitcoin_row] 0 1)].
Defined.

(** The claim as first stated asks for ranks 1, 2, ..., k without a gap.
    On a page whose first row is dropped and whose second row is kept, the
    batch is the one snapshot of rank 2. *)
Lemma ranks_gap_counterexample :
  exists (crypto_data : loc) (w' : World),
    scrape_crypto_prices env_gap world0 = (Ret crypto_data, w')
    /\ map Rank (deref w' crypto_data) = [2]
    /\ map Rank (deref w' crypto_data) <> seq 1 (List.length (deref w' crypto_data)).
Proof.
  eexists. eexists. split; [vm_compute; reflexivity|].
  split; [vm_compute; reflexivity|].
  vm_compute. discriminate.
Qed.

(** C3, as the code has it.  The batch of a run has at most ten snapshots;
    its ranks are distinct, increase along the batch and lie between 1 and
    10; each snapshot comes from the row whose position on the page is its
    rank; and when none of the first ten rows is dropped the ranks are
    1, 2, ..., k. *)
Theorem batch_ranks (env : Env) (w w' : World) (crypto_data : loc) :
  scrape_crypto_prices env w = (Ret crypto_data, w') ->
  let batch := deref w' crypto_data in
  List.length batch <= 10
  /\ NoDup (map Rank batch)
  /\ StronglySorted lt (map Rank batch)
  /\ Forall (fun coin => 1 <= Rank coin <= 10) batch
  /\ (forall coin, In coin batch ->
        exists rows row stamp,
          table_rows env = Ret rows
          /\ nth_error rows (Rank coin - 1) = Some row
          /\ row_snapshot (Rank coin) stamp row = Some coin)
  /\ (forall rows,
        page_get env = None -> table_wait env = None -> table_rows env = Ret rows ->
        Forall (fun row => exists l, fragments row = Some l /\ 6 <= List.length l)
          (firstn 10 rows) ->
        map Rank batch = seq 1 (List.length (firstn 10 rows))).
Proof.
  intros Hrun batch.
  destruct (scrape_returns _ _ _ _ Hrun) as [Hlaunch Hquit].
  destruct (scrape_run env w Hlaunch Hquit) as (out & Hrun' & _).
  rewrite Hrun' in Hrun. injection Hrun as <- <-.
  assert (Hbatch : batch = extracted env (ticks w)).
  { unfold batch. apply deref_insert. }
  clearbody batch. subst batch. unfold extracted.
  destruct (page_get env) as [e1|];
    [repeat split; simpl; try lia; try constructor; try tauto; discriminate|].
  destruct (table_wait env) as [e2|];
    [repeat split; simpl; try lia; try constructor; try tauto; discriminate|].
  destruct (table_rows env) as [rows|e3];
    [|repeat split; simpl; try lia; try constructor; try tauto; discriminate].
  assert (Hten : List.length (firstn 10 rows) <= 10) by apply firstn_le_length.
  split; [|split; [|split; [|split; [|split]]]].
  - etransitivity; [apply snapshots_length | exact Hten].
  - apply sorted_lt_NoDup, snapshots_rank_sorted.
  - apply snapshots_rank_sorted.
  - eapply Forall_impl; [apply snapshots_rank_bounds|]. simpl. intros c Hc. lia.
  - intros coin Hin.
    destruct (snapshots_source _ _ _ _ _ Hin) as (k & stamp & row & Hk & Hrank & Hsnap).
    exists rows, row, stamp. split; [reflexivity|].
    rewrite Hrank. simpl. rewrite Nat.sub_0_r. split; [|exact Hsnap].
    rewrite nth_error_firstn in Hk.
    destruct (k <? 10); [exact Hk | discriminate].
  - intros rows' _ _ [= <-] Hall. now apply snapshots_rank_contiguous.
Qed.

Lemma batch_ranks_witness :
  exists (w' : World),
    scrape_crypto_prices env_gap world0 = (Ret 0, w')
    /\ List.length (deref w' 0) <= 10
    /\ NoDup (map Rank (deref w' 0)).
Proof.
  eexists. split; [vm_compute; reflexivity|].
  match goal with
  | |- List.length (deref ?v 0) <= 10 /\ _ =>
      destruct (batch_ranks env_gap world0 v 0) as (Hlen & Hnodup & _);
        [vm_compute; reflexivity|]
  end.
  split; [exact Hlen | exact Hnodup].
Defined.

(** ** The store *)

(** [save_to_csv] on a non-empty batch, case by case. *)
Lemma save_to_csv_run (env : Env) (data : loc) (filename : string) (w : World) :
  deref w data <> [] ->
  save_to_csv env data filename w =
    (Ret (negb (io_error env w filename)),
     mkWorld (heap w) (stdout w ++ [save_line env w filename])
       (if read_error env w filename then files w
        else written env (combined env w filename (deref w data)) filename (files w))
       (ticks w)).
Proof.
  intros Hdata.
  unfold save_to_csv, bind, load, io_error, read_error, write_error, written,
    combined, save_line.
  destruct (deref w data) as [|coin rest] eqn:Hd; [congruence|].
  unfold try_except, try_except_FileNotFoundError, bind, read_csv, to_csv, print, ret.
  simpl. rewrite ?Hd.
  destruct (files w !! filename) as [prior|]; simpl.
  - destruct (read_fault env filename) as [[c m]|]; simpl; [reflexivity|].
    destruct (write_fault env filename) as [f|]; simpl; reflexivity.
  - destruct (write_fault env filename) as [f|]; simpl; reflexivity.
Qed.

Lemma save_to_csv_empty (env : Env) (data : loc) (filename : string) (w : World) :
  deref w data = [] ->
  save_to_csv env data filename w =
    (Ret false,
     mkWorld (heap w) (stdout w ++ ["❌ No data to save!"]) (files w) (ticks w)).
Proof.
  intros Hdata. unfold save_to_csv, bind, load. rewrite Hdata. reflexivity.
Qed.




(** C6.  [save_to_csv] returns and never raises.  It returns False in two
    cases and no other: the batch is empty, or an I/O error occurs in the
    read or in the write; a store that is absent is not an error, it is
    created.  On an empty batch nothing is read or written: the files are
    as before, and the outcome is the same whatever the disk would do. *)
Theorem save_to_csv_outcome (env : Env) (data : loc) (filename : string) (w : World) :
  exists (ok : bool) (w' : World),
    save_to_csv env data filename w = (Ret ok, w')
    /\ (ok = false <-> deref w data = [] \/ io_error env w filename = true)
    /\ (ok = true <->
          deref w data <> [] /\ read_error env w filename = false
          /\ write_fault env filename = None)
    /\ (deref w data = [] ->
          files w' = files w
          /\ forall env', save_to_csv env' data filename w = (Ret false, w')).
Proof.
  destruct (deref w data) as [|coin rest] eqn:Hd.
  - exists false. eexists. split; [apply save_to_csv_empty, Hd|].
    simpl. repeat split; auto; try discriminate.
    + intros (Hne & _). congruence.
    + intros env'. apply save_to_csv_empty, Hd.
  - assert (Hne : deref w data <> []) by (rewrite Hd; discriminate).
    exists (negb (io_error env w filename)). eexists.
    split; [apply save_to_csv_run, Hne|].
    unfold io_error, write_error.
    destruct (read_error env w filename); simpl;
      destruct (write_fault env filename); simpl;
      repeat split; auto; try discriminate; try tauto;
      try (intros [H|H]; discriminate);
      try (intros (_ & H1 & H2); discriminate).
Qed.

(** ** The batch in memory *)

Lemma keeps_heap_ret {A} (a : A) : keeps_heap (ret a).
Proof. intros w. reflexivity. Qed.

Lemma keeps_heap_raise {A} (e : exn) : keeps_heap (@raise A e).
Proof. intros w. reflexivity. Qed.

Lemma keeps_heap_lift {A} (r : result A) : keeps_heap (lift r).
Proof. intros w. reflexivity. Qed.

Lemma keeps_heap_print (line : string) : keeps_heap (print line).
Proof. intros w. reflexivity. Qed.

Lemma keeps_heap_load (l : loc) : keeps_heap (load l).
Proof. intros w. reflexivity. Qed.

Lemma keeps_heap_datetime_now (env : Env) : keeps_heap (datetime_now env).
Proof. intros w. reflexivity. Qed.

Lemma keeps_heap_bind {A B} (m : M A) (k : A -> M B) :
  keeps_heap m -> (forall a, keeps_heap (k a)) -> keeps_heap (bind m k).
Proof.
  intros Hm Hk w. unfold bind. specialize (Hm w).
  destruct (m w) as [[a|e] w1]; simpl in *; [|exact Hm].
  now rewrite Hk.
Qed.

Lemma keeps_heap_try_except {A} (body : M A) (handler : exn -> M A) :
  keeps_heap body -> (forall e, keeps_heap (handler e)) ->
  keeps_heap (try_except body handler).
Proof.
  intros Hb Hh w. unfold try_except. specialize (Hb w).
  destruct (body w) as [[a|e] w1]; simpl in *; [exact Hb|].
  now rewrite Hh.
Qed.

Lemma keeps_heap_try_except_FileNotFoundError {A} (body handler : M A) :
  keeps_heap body -> keeps_heap handler ->
  keeps_heap (try_except_FileNotFoundError body handler).
Proof.
  intros Hb Hh w. unfold try_except_FileNotFoundError. specialize (Hb w).
  destruct (body w) as [[a|e] w1]; simpl in *; [exact Hb|].
  destruct (is_FileNotFoundError e); simpl; [|exact Hb].
  now rewrite Hh.
Qed.

Lemma keeps_heap_for_each {A} (body : A -> M unit) (l : list A) :
  (forall x, keeps_heap (body x)) -> keeps_heap (for_each body l).
Proof.
  intros Hbody. induction l as [|x l IH]; simpl.
  - apply keeps_heap_ret.
  - apply keeps_heap_bind; [apply Hbody | intros _; exact IH].
Qed.

Lemma keeps_heap_read_csv (env : Env) (filename : string) :
  keeps_heap (read_csv env filename).
Proof.
  intros w. unfold read_csv.
  destruct (files w !! filename); [|reflexivity].
  destruct (read_fault env filename) as [[c m]|]; reflexivity.
Qed.

Lemma keeps_heap_to_csv (env : Env) (df : frame) (filename : string) :
  keeps_heap (to_csv env df filename).
Proof.
  intros w. unfold to_csv. destruct (write_fault env filename); reflexivity.
Qed.

Create HintDb frame_db.

#[local] Hint Resolve keeps_heap_ret keeps_heap_raise keeps_heap_lift keeps_heap_print
  keeps_heap_load keeps_heap_datetime_now keeps_heap_read_csv keeps_heap_to_csv
  : frame_db.

Ltac frame_step :=
  lazymatch goal with
  | |- keeps_heap (bind _ _) => apply keeps_heap_bind; [|intro]
  | |- keeps_heap (try_except_FileNotFoundError _ _) =>
      apply keeps_heap_try_except_FileNotFoundError
  | |- keeps_heap (try_except _ _) => apply keeps_heap_try_except; [|intro]
  | |- keeps_heap (for_each _ _) => apply keeps_heap_for_each; intro
  | |- keeps_heap (match ?x with [] => _ | _ :: _ => _ end) => destruct x
  | |- keeps_heap _ => solve [auto with frame_db]
  end.

Lemma keeps_heap_display_data (data : loc) : keeps_heap (display_data data).
Proof.
  unfold display_data. repeat frame_step.
  unfold display_coin. frame_step.
Qed.

Lemma keeps_heap_save_to_csv (env : Env) (data : loc) (filename : string) :
  keeps_heap (save_to_csv env data filename).
Proof.
  unfold save_to_csv. repeat frame_step.
Qed.

Lemma keeps_heap_analyze_data (data : loc) : keeps_heap (analyze_data data).
Proof.
  unfold analyze_data. repeat frame_step.
Qed.

(** C10.  [display_data], [save_to_csv] and [analyze_data] leave the batch
    in memory as it was: after each of them every list object, and so the
    list of snapshots and every field of every snapshot, is what it was
    before the call, whether the call returns or raises. *)
Theorem consumers_keep_batch (env : Env) (data : loc) (filename : string) (w : World) :
  (heap (snd (display_data data w)) = heap w
   /\ heap (snd (save_to_csv env data filename w)) = heap w
   /\ heap (snd (analyze_data data w)) = heap w)
  /\ (forall l : loc,
        deref (snd (display_data data w)) l = deref w l
        /\ deref (snd (save_to_csv env data filename w)) l = deref w l
        /\ deref (snd (analyze_data data w)) l = deref w l).
Proof.
  pose proof (keeps_heap_display_data data w) as Hd.
  pose proof (keeps_heap_save_to_csv env data filename w) as Hs.
  pose proof (keeps_heap_analyze_data data w) as Ha.
  split; [auto|].
  intros l. unfold deref. now rewrite Hd, Hs, Ha.
Qed.

(** ** max and min *)

Section Extremum.
Context {A : Type}.
(** [le' a b]: [a] is not better than [b]. *)
Variable le' : Q -> Q -> bool.
Variable key : A -> result Q.
Hypothesis le'_refl : forall a, le' a a = true.
Hypothesis le'_trans : forall a b c, le' a b = true -> le' b c = true -> le' a c = true.
Hypothesis le'_total : forall a b, le' a b = false -> le' b a = true.

Lemma best_by_spec (rest : list A) :
  forall (best : A) (kbest : Q),
    key best = Ret kbest ->
    Forall (fun c => exists q, key c = Ret q) rest ->
    exists top q,
      best_by (fun a b => negb (le' a b)) key best kbest rest = Ret top
      /\ In top (best :: rest)
      /\ key top = Ret q
      /\ le' kbest q = true
      /\ forall c q', In c rest -> key c = Ret q' -> le' q' q = true.
Proof.
  induction rest as [|x rest IH]; intros best kbest Hbest Hall.
  - exists best, kbest. simpl. repeat split; auto.
  - inversion Hall as [|y ys [kx Hkx] Hrest]; subst. simpl. rewrite Hkx. simpl.
    destruct (le' kx kbest) eqn:Hcmp; simpl.
    + destruct (IH best kbest Hbest Hrest) as (top & q & Hrun & Hin & Hkey & Hle & Hmax).
      exists top, q.
      split; [exact Hrun|]. split; [|split; [exact Hkey|split; [exact Hle|]]].
      * destruct Hin as [<-|Hin]; simpl; auto.
      * intros c q' [<-|Hc] Hq'; [|eauto].
        rewrite Hkx in Hq'. injection Hq' as <-. eauto.
    + destruct (IH x kx Hkx Hrest) as (top & q & Hrun & Hin & Hkey & Hle & Hmax).
      exists top, q.
      split; [exact Hrun|]. split; [|split; [exact Hkey|split]].
      * simpl. auto.
      * eauto.
      * intros c q' [<-|Hc] Hq'; [|eauto].
        rewrite Hkx in Hq'. now injection Hq' as <-.
Qed.

Lemma extremum_spec (name : string) (l : list A) :
  l <> [] ->
  Forall (fun c => exists q, key c = Ret q) l ->
  exists top q,
    extremum (fun a b => negb (le' a b)) name l key = Ret top
    /\ In top l
    /\ key top = Ret q
    /\ forall c q', In c l -> key c = Ret q' -> le' q' q = true.
Proof.
  intros Hne Hall. destruct l as [|x rest]; [congruence|].
  inversion Hall as [|y ys [kx Hkx] Hrest]; subst.
  destruct (best_by_spec rest x kx Hkx Hrest) as (top & q & Hrun & Hin & Hkey & Hle & Hmax).
  exists top, q. simpl. rewrite Hkx. simpl. repeat split; auto.
  intros c q' [<-|Hc] Hq'.
  - rewrite Hkx in Hq'. now injection Hq' as <-.
  - eauto.
Qed.
End Extremum.

Lemma Qle_bool_total (a b : Q) : Qle_bool a b = false -> Qle_bool b a = true.
Proof.
  intros H. apply Qle_bool_iff, Qlt_le_weak, Qnot_le_lt.
  intros Hle. apply Qle_bool_iff in Hle. congruence.
Qed.

Lemma Qle_bool_trans (a b c : Q) :
  Qle_bool a b = true -> Qle_bool b c = true -> Qle_bool a c = true.
Proof.
  rewrite !Qle_bool_iff. apply Qle_trans.
Qed.

Lemma Qle_bool_refl (a : Q) : Qle_bool a a = true.
Proof. apply Qle_bool_iff, Qle_refl. Qed.

(** [max]: an item of the list whose key no other key exceeds. *)
Lemma py_max_spec {A} (l : list A) (key : A -> result Q) :
  l <> [] ->
  Forall (fun c => exists q, key c = Ret q) l ->
  exists top q,
    py_max l key = Ret top /\ In top l /\ key top = Ret q
    /\ forall c q', In c l -> key c = Ret q' -> (q' <= q)%Q.
Proof.
  intros Hne Hall.
  destruct (extremum_spec Qle_bool key Qle_bool_refl Qle_bool_trans Qle_bool_total
              "max" l Hne Hall) as (top & q & Hrun & Hin & Hkey & Hmax).
  exists top, q. repeat split; auto.
  intros c q' Hc Hq'. apply Qle_bool_iff. eauto.
Qed.

(** [min]: an item of the list whose key exceeds no other key. *)
Lemma py_min_spec {A} (l : list A) (key : A -> result Q) :
  l <> [] ->
  Forall (fun c => exists q, key c = Ret q) l ->
  exists top q,
    py_min l key = Ret top /\ In top l /\ key top = Ret q
    /\ forall c q', In c l -> key c = Ret q' -> (q <= q')%Q.
Proof.
  intros Hne Hall.
  destruct (extremum_spec (fun a b => Qle_bool b a) key Qle_bool_refl
              (fun a b c H1 H2 => Qle_bool_trans c b a H2 H1)
              (fun a b H => Qle_bool_total b a H)
              "min" l Hne Hall) as (top & q & Hrun & Hin & Hkey & Hmax).
  exists top, q. repeat split; auto.
  intros c q' Hc Hq'. apply Qle_bool_iff. eauto.
Qed.

(** ** The analysis *)

(** [analyze_data] on a non-empty batch: the counts are printed first, then
    the top gainer, then the top loser; a key that cannot be computed
    raises after the lines before it have been printed. *)
Lemma analyze_data_run (data : loc) (w : World) :
  deref w data <> [] ->
  analyze_data data w =
    let d := deref w data in
    match top_gainer d with
    | Raise e => (Raise e, printed w (count_lines d))
    | Ret g =>
        match top_loser d with
        | Raise e =>
            (Raise e, printed w (count_lines d ++ top_line "🏆 Top Gainer: " g))
        | Ret l =>
            (Ret tt, printed w (count_lines d ++ top_line "🏆 Top Gainer: " g
                                ++ top_line "💥 Top Loser: " l))
        end
    end.
Proof.
  intros Hdata.
  unfold analyze_data, top_gainer, top_loser, count_lines, printed, bind, load,
    print, lift, ret.
  cbn -[deref gainers losers py_max py_min String.append repeat_char str_nat].
  destruct (deref w data) as [|coin rest] eqn:Hd; [congruence|].
  cbn -[deref gainers losers py_max py_min String.append repeat_char str_nat].
  rewrite !deref_same, !Hd.
  remember (coin :: rest) as d eqn:Heqd.
  destruct (gainers d) as [|g gs];
    cbn -[deref gainers losers py_max py_min String.append repeat_char str_nat].
  - destruct (losers d) as [|l ls];
      cbn -[deref gainers losers py_max py_min String.append repeat_char str_nat].
    + now rewrite <- !app_assoc.
    + destruct (py_min (l :: ls) loser_key) as [top|e];
        cbn -[String.append repeat_char str_nat]; now rewrite <- !app_assoc.
  - destruct (py_max (g :: gs) gainer_key) as [top|e];
      cbn -[deref gainers losers py_max py_min String.append repeat_char str_nat];
      [|now rewrite <- !app_assoc].
    destruct (losers d) as [|l ls];
      cbn -[deref gainers losers py_max py_min String.append repeat_char str_nat].
    + now rewrite <- !app_assoc.
    + destruct (py_min (l :: ls) loser_key) as [top'|e];
        cbn -[String.append repeat_char str_nat]; now rewrite <- !app_assoc.
Qed.

Lemma analyze_data_empty (data : loc) (w : World) :
  deref w data = [] -> analyze_data data w = (Ret tt, w).
Proof.
  intros Hdata. unfold analyze_data, bind, load. now rewrite Hdata.
Qed.

(** The counts are printed whatever comes after them. *)
Lemma analyze_data_counts (data : loc) (w : World) :
  deref w data <> [] ->
  exists r rest,
    analyze_data data w = (r, printed w (count_lines (deref w data) ++ rest)).
Proof.
  intros Hdata. rewrite (analyze_data_run data w Hdata). cbv zeta.
  destruct (top_gainer (deref w data)) as [g|e].
  - destruct (top_loser (deref w data)) as [l|e]; do 2 eexists; reflexivity.
  - exists (Raise e), []. now rewrite app_nil_r.
Qed.

Lemma startswith_plus_minus (s : string) :
  startswith "+" s = true -> startswith "-" s = true -> False.
Proof.
  unfold startswith. destruct s as [|c s]; [discriminate|].
  destruct c as [[] [] [] [] [] [] [] []]; cbn; intros; discriminate.
Qed.

(** C7.  The gainers are the snapshots of the batch whose change text
    starts with '+', the losers those whose change text starts with '-'; a
    snapshot whose change starts with neither is in neither list, and none
    is in both.  [analyze_data] prints the two counts.  A batch of changes
    without a sign, such as "0.0%", is reported with 0 gainers and 0
    losers. *)
Theorem gainers_losers_counts :
  (forall (d : list coin_info) (coin : coin_info),
      (In coin (gainers d) <-> In coin d /\ startswith "+" (Change_24h coin) = true)
      /\ (In coin (losers d) <-> In coin d /\ startswith "-" (Change_24h coin) = true)
      /\ (startswith "+" (Change_24h coin) = false ->
          startswith "-" (Change_24h coin) = false ->
          ~ In coin (gainers d) /\ ~ In coin (losers d))
      /\ ~ (In coin (gainers d) /\ In coin (losers d)))
  /\ (forall (data : loc) (w : World),
        deref w data <> [] ->
        exists r rest,
          analyze_data data w =
            (r, printed w
                  ([String newline "🔍 QUICK ANALYSIS";
                    repeat_char "-"%char 40;
                    "📈 Gainers: " +:+ str_nat (List.length (gainers (deref w data)))
                      +:+ " coins";
                    "📉 Losers: " +:+ str_nat (List.length (losers (deref w data)))
                      +:+ " coins"] ++ rest)))
  /\ (forall (data : loc) (w : World),
        deref w data <> [] ->
        Forall (fun coin => startswith "+" (Change_24h coin) = false
                            /\ startswith "-" (Change_24h coin) = false)
          (deref w data) ->
        analyze_data data w =
          (Ret tt, printed w [String newline "🔍 QUICK ANALYSIS";
                              repeat_char "-"%char 40;
                              "📈 Gainers: 0 coins";
                              "📉 Losers: 0 coins"]))
  /\ analyze_data 0 (world_with batch_flat None) =
       (Ret tt, printed (world_with batch_flat None)
                  [String newline "🔍 QUICK ANALYSIS";
                   repeat_char "-"%char 40;
                   "📈 Gainers: 0 coins";
                   "📉 Losers: 0 coins"]).
Proof.
  assert (Hmem : forall (d : list coin_info) (coin : coin_info),
      (In coin (gainers d) <-> In coin d /\ startswith "+" (Change_24h coin) = true)
      /\ (In coin (losers d) <-> In coin d /\ startswith "-" (Change_24h coin) = true)).
  { intros d coin. unfold gainers, losers. now rewrite !filter_In. }
  assert (Hnone : forall d : list coin_info,
      Forall (fun coin => startswith "+" (Change_24h coin) = false
                          /\ startswith "-" (Change_24h coin) = false) d ->
      gainers d = [] /\ losers d = []).
  { induction 1 as [|coin d [Hp Hm] _ [IHg IHl]]; [split; reflexivity|].
    unfold gainers, losers in *. simpl. now rewrite Hp, Hm. }
  split; [|split; [|split]].
  - intros d coin. destruct (Hmem d coin) as [Hg Hl].
    split; [exact Hg|]. split; [exact Hl|]. split.
    + intros Hp Hm. split; intros Hin.
      * apply Hg in Hin. destruct Hin as [_ Hin]. congruence.
      * apply Hl in Hin. destruct Hin as [_ Hin]. congruence.
    + intros [Hing Hinl]. apply Hg in Hing. apply Hl in Hinl.
      exact (startswith_plus_minus _ (proj2 Hing) (proj2 Hinl)).
  - intros data w Hdata. exact (analyze_data_counts data w Hdata).
  - intros data w Hdata Hall.
    rewrite (analyze_data_run data w Hdata). cbv zeta.
    destruct (Hnone _ Hall) as [Hg Hl].
    unfold top_gainer, top_loser, count_lines. rewrite Hg, Hl. reflexivity.
  - vm_compute. reflexivity.
Qed.

Lemma gainers_losers_counts_witness :
  deref (world_with batch_flat None) 0 <> []
  /\ exists r rest,
       analyze_data 0 (world_with batch_flat None) =
         (r, printed (world_with batch_flat None)
               ([String newline "🔍 QUICK ANALYSIS";
                 repeat_char "-"%char 40;
                 "📈 Gainers: " +:+ str_nat (List.length (gainers (deref (world_with batch_flat None) 0)))
                   +:+ " coins";
                 "📉 Losers: " +:+ str_nat (List.length (losers (deref (world_with batch_flat None) 0)))
                   +:+ " coins"] ++ rest)).
Proof.
  assert (Hdata : deref (world_with batch_flat None) 0 <> [])
    by (vm_compute; discriminate).
  split; [exact Hdata|].
  exact (proj1 (proj2 gainers_losers_counts) 0 (world_with batch_flat None) Hdata).
Defined.


Lemma losers_not_nil (d : list coin_info) : losers d <> [] -> d <> [].
Proof. intros H ->. now apply H. Qed.

(** The loser picked by line 155 has the smallest stripped value of all
    losers: the smallest loss, not the largest. *)
Lemma min_loser_key (d : list coin_info) :
  losers d <> [] ->
  Forall (fun c => exists q, loser_key c = Ret q) (losers d) ->
  exists top q,
    top_loser d = Ret (Some top) /\ In top (losers d) /\ loser_key top = Ret q
    /\ forall c q', In c (losers d) -> loser_key c = Ret q' -> (q <= q')%Q.
Proof.
  intros Hne Hall.
  destruct (py_min_spec (losers d) loser_key Hne Hall) as (top & q & Hrun & Hrest).
  exists top, q. split; [|exact Hrest].
  unfold top_loser. destruct (losers d); [congruence|]. now rewrite Hrun.
Qed.

Lemma max_gainer_key (d : list coin_info) :
  gainers d <> [] ->
  Forall (fun c => exists q, gainer_key c = Ret q) (gainers d) ->
  exists top q,
    top_gainer d = Ret (Some top) /\ In top (gainers d) /\ gainer_key top = Ret q
    /\ forall c q', In c (gainers d) -> gainer_key c = Ret q' -> (q' <= q)%Q.
Proof.
  intros Hne Hall.
  destruct (py_max_spec (gainers d) gainer_key Hne Hall) as (top & q & Hrun & Hrest).
  exists top, q. split; [|exact Hrest].
  unfold top_gainer. destruct (gainers d); [congruence|]. now rewrite Hrun.
Qed.




(** C2, on the code.  For two losers of -1.0% and -5.0% the code reports
    the coin of -1.0% as top loser: after the sign is stripped the values are
    1.0 and 5.0 and [min] takes 1.0.  The largest loss is the other one. *)
Theorem top_loser_is_smallest_loss :
  analyze_data 0 (world_with batch_losers None) =
    (Ret tt, printed (world_with batch_losers None)
               [String newline "🔍 QUICK ANALYSIS";
                repeat_char "-"%char 40;
                "📈 Gainers: 0 coins";
                "📉 Losers: 2 coins";
                "💥 Top Loser: Bitcoin (-1.0%)"])
  /\ top_loser batch_losers = Ret (Some (sample_coin 1 "Bitcoin" "BTC" "-1.0%"))
  /\ loser_key (sample_coin 1 "Bitcoin" "BTC" "-1.0%") = Ret (10 # 10)%Q
  /\ loser_key (sample_coin 2 "Ethereum" "ETH" "-5.0%") = Ret (50 # 10)%Q
  /\ (10 # 10 < 50 # 10)%Q.
Proof.
  repeat split; vm_compute; reflexivity.
Qed.

(** ** The whole run *)

Lemma display_coin_run (coin : coin_info) (w : World) :
  exists line, display_coin coin w = (Ret tt, printed w [line]).
Proof. eexists. reflexivity. Qed.

Lemma for_each_display_run (coins : list coin_info) :
  forall w, exists out, for_each display_coin coins w = (Ret tt, printed w out).
Proof.
  induction coins as [|coin coins IH]; intros w; simpl.
  - exists []. unfold ret, printed. now rewrite app_nil_r, world_eta.
  - unfold bind. destruct (display_coin_run coin w) as [line ->].
    destruct (IH (printed w [line])) as [out ->].
    exists (line :: out). unfold printed. simpl. now rewrite <- app_assoc.
Qed.

(** [display_data] never raises. *)
Lemma display_data_run (data : loc) (w : World) :
  exists out, display_data data w = (Ret tt, printed w out).
Proof.
  unfold display_data, bind, load.
  destruct (deref w data) as [|coin rest] eqn:Hd.
  - eexists. reflexivity.
  - unfold print. cbn -[deref String.append repeat_char ljust for_each].
    match goal with
    | |- context [for_each display_coin ?l ?W] =>
        destruct (for_each_display_run l W) as [out ->]
    end.
    eexists. unfold printed.
    cbn -[deref String.append repeat_char ljust for_each].
    rewrite <- !app_assoc. reflexivity.
Qed.

Lemma top_gainer_total (d : list coin_info) :
  Forall (fun c => exists q, gainer_key c = Ret q) (gainers d) ->
  exists g, top_gainer d = Ret g.
Proof.
  intros Hall. destruct (gainers d) as [|c rest] eqn:Hg.
  - exists None. unfold top_gainer. now rewrite Hg.
  - assert (Hne : gainers d <> []) by (rewrite Hg; discriminate).
    rewrite <- Hg in Hall.
    destruct (max_gainer_key d Hne Hall) as (top & q & Htop & _).
    eauto.
Qed.

Lemma top_loser_total (d : list coin_info) :
  Forall (fun c => exists q, loser_key c = Ret q) (losers d) ->
  exists l, top_loser d = Ret l.
Proof.
  intros Hall. destruct (losers d) as [|c rest] eqn:Hl.
  - exists None. unfold top_loser. now rewrite Hl.
  - assert (Hne : losers d <> []) by (rewrite Hl; discriminate).
    rewrite <- Hl in Hall.
    destruct (min_loser_key d Hne Hall) as (top & q & Htop & _).
    eauto.
Qed.

(** [analyze_data] returns when the changes it converts are numbers. *)
Lemma analyze_data_total (data : loc) (w : World) :
  Forall (fun c => exists q, gainer_key c = Ret q) (gainers (deref w data)) ->
  Forall (fun c => exists q, loser_key c = Ret q) (losers (deref w data)) ->
  exists out, analyze_data data w = (Ret tt, printed w out).
Proof.
  intros Hg Hl.
  destruct (deref w data) as [|coin rest] eqn:Hd.
  - exists []. rewrite (analyze_data_empty data w Hd).
    unfold printed. now rewrite app_nil_r, world_eta.
  - assert (Hne : deref w data <> []) by (rewrite Hd; discriminate).
    rewrite (analyze_data_run data w Hne). cbv zeta. rewrite Hd.
    destruct (top_gainer_total _ Hg) as [g ->].
    destruct (top_loser_total _ Hl) as [l ->].
    eexists. reflexivity.
Qed.

Lemma print_run (line : string) (w : World) :
  print line w = (Ret tt, printed w [line]).
Proof. reflexivity. Qed.

Lemma scrape_failure_extracted (env : Env) (tick : nat) (e : exn) :
  scrape_failure env = Some e -> extracted env tick = [].
Proof.
  unfold scrape_failure, extracted.
  destruct (page_get env); [reflexivity|].
  destruct (table_wait env); [reflexivity|].
  destruct (table_rows env); [discriminate | reflexivity].
Qed.

(** The claim as first stated has every run complete normally.  A browser
    that does not start makes [main] raise, and so does a change text that
    is not a number, such as one with a thousands separator. *)
Lemma main_raises_counterexample :
  (exists w',
      main env_no_browser world0 =
        (Raise (Exn (Other "WebDriverException")
                  "Message: unknown error: cannot find Chrome binary"), w'))
  /\ (exists w',
        main env_thousands world0 =
          (Raise (Exn ValueError "could not convert string to float: '1,234.56'"), w')).
Proof.
  split; eexists; vm_compute; reflexivity.
Qed.

(** C4, as the code has it.  When the browser starts and stops without
    error, and the signed changes of the extracted batch are numbers, [main]
    completes normally whatever else fails.  A failure of the page, of the
    table or of its rows is printed, and after it, as the last line, the
    message that no data was fetched; a failure of the store is printed.  A
    browser that does not start is not caught: its exception leaves [main]
    after the two lines of the banner. *)
Theorem main_completes :
  (forall (env : Env) (w : World),
      launch env = None ->
      quit env = None ->
      Forall (fun c => exists q, gainer_key c = Ret q)
        (gainers (extracted env (ticks w))) ->
      Forall (fun c => exists q, loser_key c = Ret q)
        (losers (extracted env (ticks w))) ->
      exists w',
        main env w = (Ret tt, w')
        /\ (forall e, scrape_failure env = Some e ->
              In ("❌ Scraping error: " +:+ str_exn e) (stdout w')
              /\ In "❌ Failed to fetch data. Please try again." (stdout w')
              /\ exists pre post,
                   stdout w' =
                     pre ++ ("❌ Scraping error: " +:+ str_exn e) :: post
                     ++ ["❌ Failed to fetch data. Please try again."])
        /\ (extracted env (ticks w) <> [] ->
            In (save_line env w default_filename) (stdout w')
            /\ (io_error env w default_filename = true ->
                exists m,
                  save_line env w default_filename = "❌ Error saving CSV: " +:+ m)))
  /\ (forall (env : Env) (w : World) (e : exn),
        launch env = Some e ->
        main env w =
          (Raise e,
           printed w ["🚀 CRYPTO TRACKER - TOP 10 COINS"; repeat_char "="%char 50])).
Proof.
  split.
  {
  intros env w Hlaunch Hquit Hg Hl. unfold main.
  rewrite (bind_ret_run _ _ _ _ _ (print_run _ w)).
  rewrite (bind_ret_run _ _ _ _ _ (print_run _ _)).
  match goal with
  | |- context [bind (scrape_crypto_prices env) _ ?W] =>
      destruct (scrape_run env W Hlaunch Hquit) as (out & Hrun & Hmsg);
      rewrite (bind_ret_run _ _ _ _ _ Hrun)
  end.
  clear Hrun.
  unfold bind at 1, load at 1. rewrite deref_insert.
  cbn [ticks printed heap stdout files] in *.
  set (l := fresh (dom (heap w))).
  assert (Hfail : forall e, scrape_failure env = Some e -> extracted env (ticks w) = [])
    by (intros e; apply scrape_failure_extracted).
  remember (extracted env (ticks w)) as batch eqn:Hbdef.
  match goal with
  | |- context [_ ?W = (Ret tt, _)] => set (w1 := W)
  end.
  assert (Hbatch : deref w1 l = batch) by apply deref_insert.
  assert (Hfiles : files w1 = files w) by reflexivity.
  assert (Hout : stdout w1 =
                 ((stdout w ++ ["🚀 CRYPTO TRACKER - TOP 10 COINS"]) ++
                  [repeat_char "="%char 50]) ++ out) by reflexivity.
  clearbody w1.
  destruct batch as [|coin rest].
  - eexists. split; [reflexivity|]. split; [|congruence].
    intros e He. unfold print, printed. simpl. rewrite Hout.
    split; [|split].
    + rewrite !in_app_iff. left. right. apply Hmsg, He.
    + rewrite !in_app_iff. simpl. auto.
    + destruct (in_split _ _ (Hmsg e He)) as (l1 & l2 & ->).
      exists (((stdout w ++ ["🚀 CRYPTO TRACKER - TOP 10 COINS"]) ++
               [repeat_char "="%char 50]) ++ l1), l2.
      rewrite <- !app_assoc. reflexivity.
  - destruct (display_data_run l w1) as [out1 Hdisplay].
    rewrite (bind_ret_run _ _ _ _ _ Hdisplay).
    assert (Hne : deref (printed w1 out1) l <> []).
    { unfold printed. rewrite deref_same, Hbatch. discriminate. }
    rewrite (bind_ret_run _ _ _ _ _ (save_to_csv_run env l default_filename _ Hne)).
    match goal with
    | |- context [bind (analyze_data l) _ ?W] => set (w3 := W)
    end.
    assert (Hbatch3 : deref w3 l = coin :: rest).
    { unfold w3, printed. rewrite deref_same. exact Hbatch. }
    destruct (analyze_data_total l w3) as [out3 Hanalyze].
    { rewrite Hbatch3. exact Hg. }
    { rewrite Hbatch3. exact Hl. }
    rewrite (bind_ret_run _ _ _ _ _ Hanalyze).
    eexists. split; [reflexivity|]. split.
    + intros e He. discriminate (Hfail e He).
    + intros _.
      assert (Hline : save_line env (printed w1 out1) default_filename
                      = save_line env w default_filename).
      { unfold save_line, printed. simpl. now rewrite Hfiles. }
      split.
      * unfold bind, datetime_now, print, printed, w3. simpl.
        rewrite Hline, !in_app_iff. simpl. auto 10.
      * unfold io_error, read_error, write_error, save_line.
        destruct (files w !! default_filename) as [prior|].
        -- destruct (read_fault env default_filename) as [[c m]|]; [eauto|].
           destruct (write_fault env default_filename) as [f|]; [eauto|discriminate].
        -- destruct (write_fault env default_filename) as [f|]; [eauto|discriminate].
  }
  {
  intros env w e Hlaunch. unfold main.
  rewrite (bind_ret_run _ _ _ _ _ (print_run _ w)).
  rewrite (bind_ret_run _ _ _ _ _ (print_run _ _)).
  unfold bind. rewrite (scrape_launch_failure env _ e Hlaunch).
  unfold printed. simpl. now rewrite <- app_assoc.
  }
Qed.

Lemma main_completes_witness :
  launch env_offline = None
  /\ quit env_offline = None
  /\ exists w',
       main env_offline world0 = (Ret tt, w')
       /\ In "❌ Scraping error: Message: net::ERR_NAME_NOT_RESOLVED" (stdout w')
       /\ In "❌ Failed to fetch data. Please try again." (stdout w').
Proof.
  split; [reflexivity|]. split; [reflexivity|].
  destruct (proj1 main_completes env_offline world0 eq_refl eq_refl)
    as (w' & Hrun & Hmsg & _).
  - change (extracted env_offline (ticks world0)) with (@nil coin_info).
    constructor.
  - change (extracted env_offline (ticks world0)) with (@nil coin_info).
    constructor.
  - exists w'. split; [exact Hrun|].
    destruct (Hmsg _ eq_refl) as (Herr & Hfailed & _).
    split; [exact Herr | exact Hfailed].
Defined.
